(** * opengl_debug_jni.cpp: the GL debug-message callback and its installer

    A shallow embedding of [core/camera/src/main/cpp/opengl_debug_jni.cpp].
    The file has two functions: the callback [gl_debug_cb], which forwards
    messages of type [GL_DEBUG_TYPE_ERROR_KHR] to the Android log, and the JNI
    entry point, which registers that callback and enables debug output.

    Both functions only call into the platform, so they are embedded as
    programs over the three platform calls they make ([Prog]); the platform
    itself (the GL context, the log, the JNI environment) is the state
    [World], and [handle] says what each call does to it. *)

From stdpp Require Import base gmap strings list.
From Stdlib Require Import ZArith String Ascii List Lia.
Import ListNotations.

Open Scope string_scope.
Open Scope list_scope.
Open Scope Z_scope.

(** ** Platform types and constants *)

(** [<GLES2/gl2.h>], [<GLES2/gl2ext.h>] and [<android/log.h>]: the integer
    types are 32 bits wide; the code only compares and passes them on, so no
    arithmetic (and no wrap-around) is involved. *)
Module GLES.

Definition GLenum := Z.
Definition GLuint := Z.
Definition GLsizei := Z.

(** A data pointer ([void*], [JNIEnv*], [jobject]) is its address. *)
Definition ptr := Z.
Definition nullptr : ptr := 0.

(** The debug types of KHR_debug. *)
Definition GL_DEBUG_TYPE_ERROR_KHR : GLenum := 0x824C.
Definition GL_DEBUG_TYPE_DEPRECATED_BEHAVIOR_KHR : GLenum := 0x824D.
Definition GL_DEBUG_TYPE_UNDEFINED_BEHAVIOR_KHR : GLenum := 0x824E.
Definition GL_DEBUG_TYPE_PORTABILITY_KHR : GLenum := 0x824F.
Definition GL_DEBUG_TYPE_PERFORMANCE_KHR : GLenum := 0x8250.
Definition GL_DEBUG_TYPE_OTHER_KHR : GLenum := 0x8251.
Definition GL_DEBUG_TYPE_MARKER_KHR : GLenum := 0x8268.

(** The capability switched on by the entry point. *)
Definition GL_DEBUG_OUTPUT_KHR : GLenum := 0x92E0.

(** Values of the context's error flag, as [glGetError] returns them. *)
Definition GL_NO_ERROR : GLenum := 0.
Definition GL_INVALID_ENUM : GLenum := 0x0500.

(** [android_LogPriority]. *)
Definition ANDROID_LOG_ERROR : Z := 6.

(** A value of type [GLDEBUGPROCKHR]: a pointer to a callback.  The only
    function of this file whose address is taken is [gl_debug_cb]; a GL
    context may also hold no callback, or one installed by other code. *)
Inductive GLDEBUGPROCKHR : Type :=
| proc_null
| proc_gl_debug_cb
| proc_foreign (addr : Z).

End GLES.
Export GLES.

(** ** Programs over platform calls *)

(** The platform functions the file calls, with their arguments.  The
    variadic arguments of [__android_log_print] are the strings consumed by
    the [%s] directives of [fmt]. *)
Inductive Call : Type :=
| glDebugMessageCallbackKHR (callback : GLDEBUGPROCKHR) (userParam : ptr)
| glEnable (cap : GLenum)
| __android_log_print (prio : Z) (tag : string) (fmt : string)
                      (args : list string).

(** C result type of each call: the two GL functions are [void],
    [__android_log_print] returns an [int]. *)
Definition result (c : Call) : Type :=
  match c with
  | __android_log_print _ _ _ _ => Z
  | _ => unit
  end.

Inductive Prog (R : Type) : Type :=
| Ret (r : R)
| Vis (c : Call) (k : result c -> Prog R).

Arguments Ret {R} r.
Arguments Vis {R} c k.

Fixpoint bind {A B : Type} (p : Prog A) (f : A -> Prog B) : Prog B :=
  match p with
  | Ret a => f a
  | Vis c k => Vis c (fun x => bind (k x) f)
  end.

Definition call (c : Call) : Prog (result c) := Vis c Ret.

Declare Scope prog_scope.
Delimit Scope prog_scope with prog.
Bind Scope prog_scope with Prog.
Notation "x <- p ;; q" := (bind p (fun x => q))
  (at level 100, p at next level, right associativity) : prog_scope.
Notation "p ;; q" := (bind p (fun _ => q))
  (at level 100, right associativity) : prog_scope.

(** ** The source *)

Definition LF : string := String "010" EmptyString.

Definition LOG_TAG : string := "OpenGLDebugLib".

(** The format string ["GL ERROR:\n %s."] of the log call. *)
Definition GL_ERROR_FMT : string := "GL ERROR:" +:+ LF +:+ " %s.".

(** [message] is the NUL-terminated text the [const GLchar*] points to. *)
Definition gl_debug_cb (source type : GLenum) (id : GLuint) (severity : GLenum)
    (length : GLsizei) (message : string) (userParam : ptr) : Prog unit :=
  if type =? GL_DEBUG_TYPE_ERROR_KHR then
    (_ <- call (__android_log_print ANDROID_LOG_ERROR LOG_TAG
                                    GL_ERROR_FMT [message]) ;;
     Ret tt)%prog
  else
    Ret tt.

Definition Java_com_google_jetpackcamera_core_camera_effects_GLDebug_enableES3DebugErrorLogging
    (env : ptr) (clazz : ptr) : Prog unit :=
  (call (glDebugMessageCallbackKHR proc_gl_debug_cb nullptr) ;;
   call (glEnable GL_DEBUG_OUTPUT_KHR))%prog.

Abbreviation enableES3DebugErrorLogging :=
  Java_com_google_jetpackcamera_core_camera_effects_GLDebug_enableES3DebugErrorLogging.

(** ** The platform *)

(** The part of a GL context the two GL calls read or write: whether the
    context implements KHR_debug, the callback slot
    ([DEBUG_CALLBACK_FUNCTION], [DEBUG_CALLBACK_USER_PARAM]), the set of
    enabled capabilities and the error flag. *)
Record GLContext : Type := mkGLContext {
  khr_debug : bool;
  debug_callback_function : GLDEBUGPROCKHR;
  debug_callback_user_param : ptr;
  enabled : gset Z;
  gl_error : GLenum
}.

Record LogEntry : Type := mkLogEntry {
  priority : Z;
  tag : string;
  text : string
}.

(** [logcat] is in order of writing, oldest first.  [pending_exception] is
    the exception pending in the JNI environment of the calling thread, the
    one way a [void] native method reports failure to its managed caller. *)
Record World : Type := mkWorld {
  gl : GLContext;
  logcat : list LogEntry;
  pending_exception : option string
}.

(** [printf]-style expansion, for the directives [%s] and [%%]. *)
Fixpoint format (fmt : string) (args : list string) : string :=
  match fmt with
  | EmptyString => EmptyString
  | String "%" (String "s" rest) =>
      match args with
      | a :: args' => a +:+ format rest args'
      | [] => format rest []
      end
  | String "%" (String "%" rest) => String "%" (format rest args)
  | String c rest => String c (format rest args)
  end.

Definition set_debug_callback (cb : GLDEBUGPROCKHR) (up : ptr)
    (g : GLContext) : GLContext :=
  {| khr_debug := khr_debug g;
     debug_callback_function := cb;
     debug_callback_user_param := up;
     enabled := enabled g;
     gl_error := gl_error g |}.

Definition set_enabled (cap : GLenum) (g : GLContext) : GLContext :=
  {| khr_debug := khr_debug g;
     debug_callback_function := debug_callback_function g;
     debug_callback_user_param := debug_callback_user_param g;
     enabled := {[ cap ]} ∪ enabled g;
     gl_error := gl_error g |}.

(** The error flag after an error [e]: the flag keeps the first error
    recorded until [glGetError] reads it, which this code never does. *)
Definition flag_after (e : GLenum) (flag : GLenum) : GLenum :=
  if flag =? GL_NO_ERROR then e else flag.

Definition record_error (e : GLenum) (g : GLContext) : GLContext :=
  {| khr_debug := khr_debug g;
     debug_callback_function := debug_callback_function g;
     debug_callback_user_param := debug_callback_user_param g;
     enabled := enabled g;
     gl_error := flag_after e (gl_error g) |}.

(** A capability the context does not know is rejected by [glEnable]; for
    [GL_DEBUG_OUTPUT_KHR] that is a context without KHR_debug. *)
Definition accepts_cap (g : GLContext) (cap : GLenum) : bool :=
  if cap =? GL_DEBUG_OUTPUT_KHR then khr_debug g else true.

Definition with_gl (g : GLContext) (w : World) : World :=
  {| gl := g; logcat := logcat w; pending_exception := pending_exception w |}.

Definition write_log (e : LogEntry) (w : World) : World :=
  {| gl := gl w; logcat := logcat w ++ [e];
     pending_exception := pending_exception w |}.

(** What each platform call does.  On a context without KHR_debug the
    registration is a no-op; [glEnable] of a capability the context rejects
    enables nothing and records [GL_INVALID_ENUM] in the error flag.
    [__android_log_print] appends one entry holding the whole expanded
    format (the size limit of the log's buffer is not modelled) and returns
    1, a result the caller discards. *)
Definition handle (c : Call) (w : World) : World * result c :=
  match c return World * result c with
  | glDebugMessageCallbackKHR cb up =>
      (if khr_debug (gl w) then with_gl (set_debug_callback cb up (gl w)) w
       else w, tt)
  | glEnable cap =>
      (if accepts_cap (gl w) cap then with_gl (set_enabled cap (gl w)) w
       else with_gl (record_error GL_INVALID_ENUM (gl w)) w, tt)
  | __android_log_print prio tg fmt args =>
      (write_log (mkLogEntry prio tg (format fmt args)) w, 1)
  end.

(** The outcome of a program: the calls it made, in order, the world it
    leaves, and its return value. *)
Record Outcome (R : Type) : Type := mkOutcome {
  trace : list Call;
  final : World;
  value : R
}.

Arguments mkOutcome {R} trace final value.
Arguments trace {R} o.
Arguments final {R} o.
Arguments value {R} o.

Fixpoint run {R : Type} (p : Prog R) (w : World) : Outcome R :=
  match p with
  | Ret r => mkOutcome [] w r
  | Vis c k =>
      let (w1, x) := handle c w in
      let o := run (k x) w1 in
      mkOutcome (c :: trace o) (final o) (value o)
  end.

Definition exec {R : Type} (p : Prog R) (w : World) : World := final (run p w).

(** ** Invocations *)

(** The seven arguments of one invocation of the callback. *)
Record Invocation : Type := mkInvocation {
  inv_source : GLenum;
  inv_type : GLenum;
  inv_id : GLuint;
  inv_severity : GLenum;
  inv_length : GLsizei;
  inv_message : string;
  inv_userParam : ptr
}.

Definition invoke (i : Invocation) : Prog unit :=
  gl_debug_cb (inv_source i) (inv_type i) (inv_id i) (inv_severity i)
              (inv_length i) (inv_message i) (inv_userParam i).

(** What can happen to this code: the managed caller invokes the entry
    point, or the callback is invoked. *)
Inductive Op : Type :=
| op_enable (env : ptr) (clazz : ptr)
| op_callback (i : Invocation).

Definition op_prog (o : Op) : Prog unit :=
  match o with
  | op_enable env clazz => enableES3DebugErrorLogging env clazz
  | op_callback i => invoke i
  end.

Fixpoint seq (ops : list Op) : Prog unit :=
  match ops with
  | [] => Ret tt
  | o :: rest => (op_prog o ;; seq rest)%prog
  end.

(** ** The driver side of KHR_debug *)

Definition debug_output_on (g : GLContext) : bool :=
  khr_debug g && bool_decide (GL_DEBUG_OUTPUT_KHR ∈ enabled g).

(** Calling through a callback pointer.  Code behind a foreign pointer is
    not part of this file and writes nothing this model tracks. *)
Definition call_proc (p : GLDEBUGPROCKHR) (i : Invocation) : Prog unit :=
  match p with
  | proc_gl_debug_cb => invoke i
  | proc_null | proc_foreign _ => Ret tt
  end.

(** The driver raises a debug message: with debug output enabled it calls
    the registered callback with the message, its length and the registered
    user parameter; otherwise the message is dropped. *)
Definition driver_message (source type : GLenum) (id : GLuint)
    (severity : GLenum) (message : string) (w : World) : World :=
  if debug_output_on (gl w) then
    exec (call_proc (debug_callback_function (gl w))
            (mkInvocation source type id severity
               (Z.of_nat (String.length message)) message
               (debug_callback_user_param (gl w)))) w
  else w.

(** ** Observations used in the statements *)

Definition is_log_call (c : Call) : bool :=
  match c with
  | __android_log_print _ _ _ _ => true
  | _ => false
  end.

(** The calls of a trace that reach the log sink. *)
Definition log_calls (t : list Call) : list Call := List.filter is_log_call t.

Definition is_error (i : Invocation) : bool :=
  inv_type i =? GL_DEBUG_TYPE_ERROR_KHR.

(** The log call the source makes for [message]. *)
Definition error_call (message : string) : Call :=
  __android_log_print ANDROID_LOG_ERROR LOG_TAG GL_ERROR_FMT [message].

(** The entry the specification describes for [message]: error priority,
    the tag, and ["GL ERROR:"], a newline, a space, the message, a period. *)
Definition error_entry (message : string) : LogEntry :=
  {| priority := ANDROID_LOG_ERROR;
     tag := "OpenGLDebugLib";
     text := "GL ERROR:" +:+ LF +:+ " " +:+ message +:+ "." |}.

(** The two steps of the entry point as the specification lists them. *)
Definition register_step : Call :=
  glDebugMessageCallbackKHR proc_gl_debug_cb nullptr.
Definition enable_step : Call := glEnable GL_DEBUG_OUTPUT_KHR.

(** Everything of the world outside the callback slot and the log. *)
Definition outside_slot_unchanged (w w' : World) : Prop :=
  khr_debug (gl w') = khr_debug (gl w) /\
  enabled (gl w') = enabled (gl w) /\
  gl_error (gl w') = gl_error (gl w) /\
  pending_exception w' = pending_exception w.

(** Everything outside the callback slot, the debug-output enable flag, the
    GL error flag and the log. *)
Definition outside_debug_state_unchanged (w w' : World) : Prop :=
  khr_debug (gl w') = khr_debug (gl w) /\
  enabled (gl w') ∖ {[ GL_DEBUG_OUTPUT_KHR ]} =
    enabled (gl w) ∖ {[ GL_DEBUG_OUTPUT_KHR ]} /\
  pending_exception w' = pending_exception w.

(** A fresh context that implements KHR_debug, and one that does not. *)
Definition fresh_context (debug : bool) : GLContext :=
  {| khr_debug := debug;
     debug_callback_function := proc_null;
     debug_callback_user_param := nullptr;
     enabled := ∅;
     gl_error := GL_NO_ERROR |}.

Definition fresh_world (debug : bool) : World :=
  {| gl := fresh_context debug; logcat := []; pending_exception := None |}.

(** The world the entry point leaves, written out. *)
Definition installed (w : World) : World :=
  if khr_debug (gl w) then
    with_gl {| khr_debug := khr_debug (gl w);
               debug_callback_function := proc_gl_debug_cb;
               debug_callback_user_param := nullptr;
               enabled := {[ GL_DEBUG_OUTPUT_KHR ]} ∪ enabled (gl w);
               gl_error := gl_error (gl w) |} w
  else with_gl (record_error GL_INVALID_ENUM (gl w)) w.

(** The callback slot holds [gl_debug_cb], registered with a null user
    parameter. *)
Definition holds_gl_debug_cb (w : World) : Prop :=
  debug_callback_function (gl w) = proc_gl_debug_cb /\
  debug_callback_user_param (gl w) = nullptr.

(** A call that does not empty the slot: any registration it makes is of
    [gl_debug_cb]. *)
Definition keeps_callback (c : Call) : Prop :=
  match c with
  | glDebugMessageCallbackKHR cb _ => cb = proc_gl_debug_cb
  | _ => True
  end.

(** The shape of an entry written for one of the callback invocations in
    [ops]. *)
Definition gl_error_entry_of (ops : list Op) (e : LogEntry) : Prop :=
  priority e = ANDROID_LOG_ERROR /\
  tag e = "OpenGLDebugLib" /\
  exists i : Invocation,
    In (op_callback i) ops /\
    text e = "GL ERROR:" +:+ LF +:+ " " +:+ inv_message i +:+ ".".

(** Whether the entry point is invoked somewhere in [ops]. *)
Definition is_enable (o : Op) : bool :=
  match o with
  | op_enable _ _ => true
  | op_callback _ => false
  end.

Definition invokes_entry_point (ops : list Op) : bool := existsb is_enable ops.

(** The messages of the callback invocations of [ops] whose type is error,
    in order. *)
Fixpoint error_messages (ops : list Op) : list string :=
  match ops with
  | [] => []
  | op_enable _ _ :: rest => error_messages rest
  | op_callback i :: rest =>
      if is_error i then inv_message i :: error_messages rest
      else error_messages rest
  end.

(** ** Running programs *)

Lemma run_bind {A B : Type} (p : Prog A) (f : A -> Prog B) (w : World) :
  run (bind p f) w =
  mkOutcome (trace (run p w) ++ trace (run (f (value (run p w))) (final (run p w))))
            (final (run (f (value (run p w))) (final (run p w))))
            (value (run (f (value (run p w))) (final (run p w)))).
Proof.
  revert w. induction p as [a | c k IH]; intros w; simpl.
  - now destruct (run (f a) w).
  - destruct (handle c w) as [w1 x]. simpl. rewrite IH. reflexivity.
Qed.

Lemma format_GL_ERROR (message : string) :
  format GL_ERROR_FMT [message] = text (error_entry message).
Proof.
  unfold GL_ERROR_FMT, error_entry, LF. simpl. reflexivity.
Qed.

Lemma run_gl_debug_cb_error (source : GLenum) (id : GLuint)
    (severity : GLenum) (length : GLsizei) (message : string)
    (userParam : ptr) (w : World) :
  run (gl_debug_cb source GL_DEBUG_TYPE_ERROR_KHR id severity length message
                   userParam) w =
  mkOutcome [error_call message] (write_log (error_entry message) w) tt.
Proof.
  unfold gl_debug_cb. rewrite Z.eqb_refl. cbn [bind call run handle].
  cbn [trace final value]. rewrite format_GL_ERROR. reflexivity.
Qed.

Lemma run_gl_debug_cb_other (source type : GLenum) (id : GLuint)
    (severity : GLenum) (length : GLsizei) (message : string)
    (userParam : ptr) (w : World) :
  type <> GL_DEBUG_TYPE_ERROR_KHR ->
  run (gl_debug_cb source type id severity length message userParam) w =
  mkOutcome [] w tt.
Proof.
  intros Hne. unfold gl_debug_cb.
  destruct (Z.eqb_spec type GL_DEBUG_TYPE_ERROR_KHR) as [Heq | _].
  - contradiction.
  - reflexivity.
Qed.

Lemma run_invoke (i : Invocation) (w : World) :
  run (invoke i) w =
  if is_error i
  then mkOutcome [error_call (inv_message i)]
                 (write_log (error_entry (inv_message i)) w) tt
  else mkOutcome [] w tt.
Proof.
  unfold invoke, is_error.
  destruct (Z.eqb_spec (inv_type i) GL_DEBUG_TYPE_ERROR_KHR) as [Heq | Hne].
  - rewrite Heq. apply run_gl_debug_cb_error.
  - now apply run_gl_debug_cb_other.
Qed.

Lemma run_enable (env clazz : ptr) (w : World) :
  run (enableES3DebugErrorLogging env clazz) w =
  mkOutcome [register_step; enable_step]
            (fst (handle enable_step (fst (handle register_step w)))) tt.
Proof. reflexivity. Qed.

Lemma exec_enable (env clazz : ptr) (w : World) :
  exec (enableES3DebugErrorLogging env clazz) w = installed w.
Proof.
  unfold exec. rewrite run_enable. cbn [final].
  unfold installed, register_step, enable_step. cbn [handle fst].
  unfold accepts_cap. rewrite Z.eqb_refl.
  destruct (khr_debug (gl w)) eqn:Hk.
  - unfold with_gl, set_enabled, set_debug_callback. cbn. now rewrite Hk.
  - now rewrite Hk.
Qed.

Lemma flag_after_idem (flag : GLenum) :
  flag_after GL_INVALID_ENUM (flag_after GL_INVALID_ENUM flag) =
  flag_after GL_INVALID_ENUM flag.
Proof.
  unfold flag_after. destruct (flag =? GL_NO_ERROR) eqn:Hflag.
  - reflexivity.
  - now rewrite Hflag.
Qed.

Lemma installed_idem (w : World) : installed (installed w) = installed w.
Proof.
  unfold installed. destruct (khr_debug (gl w)) eqn:Hk.
  - unfold with_gl. cbn. do 2 f_equal.
    now rewrite (assoc_L (∪)), (idemp_L (∪)).
  - unfold with_gl, record_error. cbn. rewrite Hk. cbn.
    now rewrite flag_after_idem.
Qed.

Lemma run_seq_cons (o : Op) (ops : list Op) (w : World) :
  run (seq (o :: ops)) w =
  mkOutcome (trace (run (op_prog o) w) ++ trace (run (seq ops) (exec (op_prog o) w)))
            (final (run (seq ops) (exec (op_prog o) w)))
            (value (run (seq ops) (exec (op_prog o) w))).
Proof. cbn [seq]. rewrite run_bind. reflexivity. Qed.

Lemma log_calls_app (t1 t2 : list Call) :
  log_calls (t1 ++ t2) = log_calls t1 ++ log_calls t2.
Proof. apply List.filter_app. Qed.

Lemma run_callbacks (invs : list Invocation) (w : World) :
  log_calls (trace (run (seq (map op_callback invs)) w)) =
    map (fun i => error_call (inv_message i)) (List.filter is_error invs) /\
  logcat (exec (seq (map op_callback invs)) w) =
    logcat w ++
    map (fun i => error_entry (inv_message i)) (List.filter is_error invs).
Proof.
  revert w. induction invs as [| i invs IH]; intros w.
  - cbn. now rewrite app_nil_r.
  - cbn [map]. unfold exec. rewrite run_seq_cons. cbn [trace final].
    rewrite log_calls_app. cbn [op_prog]. unfold exec.
    rewrite run_invoke. cbn [List.filter].
    destruct (IH (final (if is_error i
        then mkOutcome [error_call (inv_message i)]
               (write_log (error_entry (inv_message i)) w) tt
        else mkOutcome [] w tt))) as [IHt IHl].
    unfold exec in IHl. rewrite IHt, IHl.
    destruct (is_error i); cbn.
    + split; [reflexivity | now rewrite <- app_assoc].
    + split; reflexivity.
Qed.

(** The debug types other than error, as KHR_debug names them. *)
Example other_types_are_dropped (w : World) :
  Forall (fun type =>
            run (gl_debug_cb 0x8246 type 1 0x9147 4 "text" nullptr) w =
            mkOutcome [] w tt)
         [ GL_DEBUG_TYPE_DEPRECATED_BEHAVIOR_KHR;
           GL_DEBUG_TYPE_UNDEFINED_BEHAVIOR_KHR;
           GL_DEBUG_TYPE_PORTABILITY_KHR;
           GL_DEBUG_TYPE_PERFORMANCE_KHR;
           GL_DEBUG_TYPE_OTHER_KHR;
           GL_DEBUG_TYPE_MARKER_KHR ].
Proof. repeat constructor. Qed.

(** ** The claims *)

(** C1. Filter correctness of the callback.  An invocation whose type is
    [GL_DEBUG_TYPE_ERROR_KHR] makes exactly one call to the log sink, with
    the fixed tag and the original message, and the log gains exactly the
    entry for that message; an invocation of any other type makes no call
    and leaves the log as it was.  Over any series of invocations the log
    gains one entry per error invocation, in order, repeated messages
    included: nothing is batched, dropped or merged. *)
Theorem gl_debug_cb_filter :
  forall (source type : GLenum) (id : GLuint) (severity : GLenum)
         (length : GLsizei) (message : string) (userParam : ptr) (w : World),
    let o := run (gl_debug_cb source type id severity length message
                              userParam) w in
    (type = GL_DEBUG_TYPE_ERROR_KHR ->
       log_calls (trace o) =
         [__android_log_print ANDROID_LOG_ERROR LOG_TAG GL_ERROR_FMT [message]] /\
       logcat (final o) = logcat w ++ [error_entry message]) /\
    (type <> GL_DEBUG_TYPE_ERROR_KHR ->
       log_calls (trace o) = [] /\ logcat (final o) = logcat w) /\
    (forall invs : list Invocation,
       let os := run (seq (map op_callback invs)) w in
       log_calls (trace os) =
         map (fun i => error_call (inv_message i)) (List.filter is_error invs) /\
       logcat (final os) =
         logcat w ++
         map (fun i => error_entry (inv_message i)) (List.filter is_error invs)).
Proof.
  intros source type id severity length message userParam w o.
  split; [| split].
  - intros ->. subst o. rewrite run_gl_debug_cb_error. split; reflexivity.
  - intros Hne. subst o. rewrite run_gl_debug_cb_other by assumption.
    split; reflexivity.
  - intros invs os. subst os. apply run_callbacks.
Qed.

Lemma gl_debug_cb_filter_witness :
  (logcat (final (run (gl_debug_cb 0x8246 GL_DEBUG_TYPE_ERROR_KHR 7 0x9146 4
                                   "oops" nullptr) (fresh_world true))) =
     [error_entry "oops"]) /\
  (logcat (final (run (gl_debug_cb 0x8246 GL_DEBUG_TYPE_PERFORMANCE_KHR 7
                                   0x9146 4 "slow" nullptr)
                      (fresh_world true))) = []).
Proof.
  split.
  - apply (proj1 (gl_debug_cb_filter 0x8246 GL_DEBUG_TYPE_ERROR_KHR 7 0x9146 4
                    "oops" nullptr (fresh_world true))).
    reflexivity.
  - apply (proj1 (proj2 (gl_debug_cb_filter 0x8246
                    GL_DEBUG_TYPE_PERFORMANCE_KHR 7 0x9146 4 "slow" nullptr
                    (fresh_world true)))).
    unfold GL_DEBUG_TYPE_PERFORMANCE_KHR, GL_DEBUG_TYPE_ERROR_KHR. lia.
Defined.

(** C2. Scenario A.  On a context with KHR_debug, once the entry point has
    run, a driver message of type error with text "Shader compile failed"
    adds exactly one entry to the log: error priority, tag "OpenGLDebugLib",
    text "GL ERROR:", newline, space, "Shader compile failed", period. *)
Theorem scenario_A_shader_compile_failed :
  forall (env clazz : ptr) (source : GLenum) (id : GLuint) (severity : GLenum)
         (w : World),
    khr_debug (gl w) = true ->
    let w1 := exec (enableES3DebugErrorLogging env clazz) w in
    logcat w1 = logcat w /\
    logcat (driver_message source GL_DEBUG_TYPE_ERROR_KHR id severity
                           "Shader compile failed" w1) =
      logcat w1 ++
      [ {| priority := ANDROID_LOG_ERROR;
           tag := "OpenGLDebugLib";
           text := "GL ERROR:" +:+ LF +:+ " Shader compile failed." |} ].
Proof.
  intros env clazz source id severity w Hk w1. subst w1.
  rewrite exec_enable. unfold installed. rewrite Hk.
  split; [reflexivity |].
  unfold driver_message, debug_output_on. cbn [gl with_gl khr_debug enabled].
  cbn [andb].
  rewrite bool_decide_eq_true_2 by (apply elem_of_union_l, elem_of_singleton; reflexivity).
  cbn [debug_callback_function debug_callback_user_param call_proc].
  unfold exec, invoke. cbn [inv_source inv_type inv_id inv_severity inv_length
                            inv_message inv_userParam].
  rewrite run_gl_debug_cb_error. reflexivity.
Qed.

Lemma scenario_A_shader_compile_failed_witness :
  logcat (driver_message 0x8246 GL_DEBUG_TYPE_ERROR_KHR 1 0x9146
            "Shader compile failed"
            (exec (enableES3DebugErrorLogging 0 0) (fresh_world true))) =
  [ {| priority := 6;
       tag := "OpenGLDebugLib";
       text := "GL ERROR:" +:+ LF +:+ " Shader compile failed." |} ].
Proof.
  apply (proj2 (scenario_A_shader_compile_failed 0 0 0x8246 1 0x9146
                  (fresh_world true) eq_refl)).
Defined.

(** C3. The entry point makes exactly two platform calls, in this order:
    it registers [gl_debug_cb] with a null user parameter, then enables
    [GL_DEBUG_OUTPUT_KHR]; the world it leaves is the one those two calls
    produce, one after the other.  It returns [void] and leaves no exception
    pending: the caller gets no status. *)
Theorem enableES3DebugErrorLogging_steps :
  forall (env clazz : ptr) (w : World),
    let o := run (enableES3DebugErrorLogging env clazz) w in
    trace o = [ glDebugMessageCallbackKHR proc_gl_debug_cb nullptr;
                glEnable GL_DEBUG_OUTPUT_KHR ] /\
    final o =
      fst (handle (glEnable GL_DEBUG_OUTPUT_KHR)
             (fst (handle (glDebugMessageCallbackKHR proc_gl_debug_cb nullptr)
                     w))) /\
    value o = tt /\
    pending_exception (final o) = pending_exception w.
Proof.
  intros env clazz w o. subst o. rewrite run_enable.
  cbn [trace final value]. repeat split.
  change (pending_exception (exec (enableES3DebugErrorLogging env clazz) w) =
          pending_exception w).
  rewrite exec_enable. unfold installed.
  now destruct (khr_debug (gl w)).
Qed.

(** C4, as stated: the entry point changes nothing outside the callback
    slot and the log.  It fails on a fresh context with KHR_debug, where the
    call [glEnable(GL_DEBUG_OUTPUT_KHR)] turns the debug-output flag on, and
    on a fresh context without KHR_debug, where the same call is rejected
    and leaves [GL_INVALID_ENUM] in the error flag. *)
Lemma enable_changes_debug_output_flag :
  ~ outside_slot_unchanged (fresh_world true)
      (exec (enableES3DebugErrorLogging 0 0) (fresh_world true)) /\
  ~ outside_slot_unchanged (fresh_world false)
      (exec (enableES3DebugErrorLogging 0 0) (fresh_world false)).
Proof.
  split.
  - intros (_ & Hen & _). rewrite exec_enable in Hen. cbn in Hen.
    assert (Hin : GL_DEBUG_OUTPUT_KHR ∈ (∅ : gset Z)).
    { rewrite <- Hen. apply elem_of_union_l, elem_of_singleton. reflexivity. }
    exact (not_elem_of_empty _ Hin).
  - intros (_ & _ & Herr & _). rewrite exec_enable in Herr. cbn in Herr.
    discriminate Herr.
Qed.

(** C4, amended.  The entry point changes nothing outside the callback
    slot, the debug-output enable flag, the GL error flag and the log:
    KHR_debug support, every other capability and the pending exception are
    as before.  The error flag itself is as before on a context with
    KHR_debug; without KHR_debug it records [GL_INVALID_ENUM] unless an
    earlier error is still pending.  (The log is in fact untouched as
    well.) *)
Theorem enableES3DebugErrorLogging_frame :
  forall (env clazz : ptr) (w : World),
    let w' := exec (enableES3DebugErrorLogging env clazz) w in
    outside_debug_state_unchanged w w' /\
    logcat w' = logcat w /\
    gl_error (gl w') =
      (if khr_debug (gl w) then gl_error (gl w)
       else flag_after GL_INVALID_ENUM (gl_error (gl w))).
Proof.
  intros env clazz w w'. subst w'. rewrite exec_enable.
  unfold installed, outside_debug_state_unchanged.
  destruct (khr_debug (gl w)) eqn:Hk; cbn.
  - repeat split; try reflexivity.
    apply set_eq. intros x.
    rewrite !elem_of_difference, elem_of_union, elem_of_singleton. tauto.
  - rewrite Hk. repeat split; reflexivity.
Qed.

(** Registering twice: the second registration replaces the first. *)
Lemma last_registration_wins (cb1 cb2 : GLDEBUGPROCKHR) (up1 up2 : ptr)
    (w : World) :
  fst (handle (glDebugMessageCallbackKHR cb2 up2)
         (fst (handle (glDebugMessageCallbackKHR cb1 up1) w))) =
  fst (handle (glDebugMessageCallbackKHR cb2 up2) w).
Proof.
  cbn [handle fst]. destruct (khr_debug (gl w)) eqn:Hk; cbn; now rewrite Hk.
Qed.

(** C5. Invoking the entry point twice makes the registration call twice
    (and the enable call twice), the second registration replacing the
    first, and leaves the whole world, so in particular the callback slot
    and the debug-output flag, exactly as one invocation does.  Both runs
    return normally with no exception pending that was not there before. *)
Theorem enableES3DebugErrorLogging_idempotent :
  forall (env1 clazz1 env2 clazz2 : ptr) (w : World),
    let once := run (enableES3DebugErrorLogging env1 clazz1) w in
    let twice := run (enableES3DebugErrorLogging env1 clazz1 ;;
                      enableES3DebugErrorLogging env2 clazz2)%prog w in
    trace twice = [register_step; enable_step; register_step; enable_step] /\
    final twice = final once /\
    debug_callback_function (gl (final twice)) =
      debug_callback_function (gl (final once)) /\
    debug_callback_user_param (gl (final twice)) =
      debug_callback_user_param (gl (final once)) /\
    debug_output_on (gl (final twice)) = debug_output_on (gl (final once)) /\
    value twice = tt /\
    pending_exception (final twice) = pending_exception w /\
    (forall (cb : GLDEBUGPROCKHR) (up : ptr),
       fst (handle register_step
              (fst (handle (glDebugMessageCallbackKHR cb up) w))) =
       fst (handle register_step w)).
Proof.
  intros env1 clazz1 env2 clazz2 w once twice.
  assert (Hfinal : final twice = final once).
  { subst once twice. rewrite run_bind. cbn [final].
    change (exec (enableES3DebugErrorLogging env2 clazz2)
              (exec (enableES3DebugErrorLogging env1 clazz1) w) =
            exec (enableES3DebugErrorLogging env1 clazz1) w).
    rewrite !exec_enable. apply installed_idem. }
  split; [| split; [exact Hfinal |]].
  - subst twice. rewrite run_bind, !run_enable. reflexivity.
  - rewrite Hfinal. repeat split.
    + subst once.
      change (pending_exception
                (exec (enableES3DebugErrorLogging env1 clazz1) w)
              = pending_exception w).
      rewrite exec_enable. unfold installed. now destruct (khr_debug (gl w)).
    + intros cb up. apply last_registration_wins.
Qed.

(** C6. The entry point has no error path.  From every world it makes
    the two GL calls and nothing else, returns [void], leaves no new pending
    exception, makes no call to the log sink and leaves the log as it was.
    On a context without KHR_debug the registration is a no-op: the callback
    slot and the capabilities stay as they were, and the world is the old
    one except for the context's error flag, where the rejected [glEnable]
    records [GL_INVALID_ENUM]; nothing reads that flag or hands it to the
    caller. *)
Theorem enableES3DebugErrorLogging_no_error_path :
  forall (env clazz : ptr) (w : World),
    let o := run (enableES3DebugErrorLogging env clazz) w in
    trace o = [register_step; enable_step] /\
    value o = tt /\
    pending_exception (final o) = pending_exception w /\
    log_calls (trace o) = [] /\
    logcat (final o) = logcat w /\
    (khr_debug (gl w) = false ->
       final o = with_gl (record_error GL_INVALID_ENUM (gl w)) w /\
       debug_callback_function (gl (final o)) =
         debug_callback_function (gl w) /\
       debug_callback_user_param (gl (final o)) =
         debug_callback_user_param (gl w) /\
       enabled (gl (final o)) = enabled (gl w)).
Proof.
  intros env clazz w o.
  assert (Hfinal : final o = installed w).
  { exact (exec_enable env clazz w). }
  rewrite Hfinal. subst o. rewrite run_enable. cbn [trace value].
  unfold installed.
  destruct (khr_debug (gl w)) eqn:Hk.
  - do 5 (split; [reflexivity |]). intros Hfalse. discriminate Hfalse.
  - do 5 (split; [reflexivity |]). intros _. repeat split.
Qed.

Lemma enableES3DebugErrorLogging_no_error_path_witness :
  final (run (enableES3DebugErrorLogging 0 0) (fresh_world false)) =
  {| gl := {| khr_debug := false;
              debug_callback_function := proc_null;
              debug_callback_user_param := nullptr;
              enabled := ∅;
              gl_error := GL_INVALID_ENUM |};
     logcat := [];
     pending_exception := None |}.
Proof.
  destruct (enableES3DebugErrorLogging_no_error_path 0 0 (fresh_world false))
    as (_ & _ & _ & _ & _ & Hno_debug).
  destruct (Hno_debug eq_refl) as [Hfinal _].
  exact Hfinal.
Defined.

(** C7. The callback's outcome (the calls it makes, the world it leaves,
    its return value) is a function of the message type and the message
    text only: two invocations that agree on these and differ in source,
    id, severity, length and user parameter have the same outcome. *)
Theorem gl_debug_cb_depends_on_type_and_message_only :
  forall (type : GLenum) (message : string)
         (source1 source2 : GLenum) (id1 id2 : GLuint)
         (severity1 severity2 : GLenum) (length1 length2 : GLsizei)
         (userParam1 userParam2 : ptr) (w : World),
    run (gl_debug_cb source1 type id1 severity1 length1 message userParam1) w =
    run (gl_debug_cb source2 type id2 severity2 length2 message userParam2) w.
Proof.
  intros type message s1 s2 i1 i2 sev1 sev2 l1 l2 u1 u2 w.
  destruct (Z.eq_dec type GL_DEBUG_TYPE_ERROR_KHR) as [-> | Hne].
  - now rewrite !run_gl_debug_cb_error.
  - now rewrite !run_gl_debug_cb_other.
Qed.

Lemma exec_invoke_gl (i : Invocation) (w : World) :
  gl (exec (invoke i) w) = gl w /\
  pending_exception (exec (invoke i) w) = pending_exception w.
Proof.
  unfold exec. rewrite run_invoke. now destruct (is_error i).
Qed.

Lemma op_preserves_callback (o : Op) (w : World) :
  holds_gl_debug_cb w -> holds_gl_debug_cb (exec (op_prog o) w).
Proof.
  intros [Hcb Hup]. destruct o as [env clazz | i]; cbn [op_prog].
  - rewrite exec_enable. unfold installed.
    destruct (khr_debug (gl w)); [split; reflexivity | now split].
  - unfold holds_gl_debug_cb.
    destruct (exec_invoke_gl i w) as [-> _]. now split.
Qed.

Lemma op_trace_keeps_callback (o : Op) (w : World) :
  Forall keeps_callback (trace (run (op_prog o) w)).
Proof.
  destruct o as [env clazz | i]; cbn [op_prog].
  - rewrite run_enable. cbn [trace].
    repeat constructor.
  - rewrite run_invoke. destruct (is_error i); cbn [trace];
      repeat constructor.
Qed.

Lemma seq_preserves_callback (ops : list Op) (w : World) :
  holds_gl_debug_cb w ->
  holds_gl_debug_cb (exec (seq ops) w) /\
  Forall keeps_callback (trace (run (seq ops) w)).
Proof.
  revert w. induction ops as [| o ops IH]; intros w Hw.
  - split; [exact Hw | constructor].
  - unfold exec. rewrite run_seq_cons. cbn [trace final].
    destruct (IH (exec (op_prog o) w) (op_preserves_callback o w Hw))
      as [IHw IHt].
    split; [exact IHw |].
    apply Forall_app. split; [apply op_trace_keeps_callback | exact IHt].
Qed.

(** C8. On a context with KHR_debug, once the entry point has run, the
    callback slot holds [gl_debug_cb] (with a null user parameter) after
    every further series of entry-point and callback invocations, and no
    call made along the way registers anything else: this code never
    clears the slot. *)
Theorem callback_stays_installed :
  forall (env clazz : ptr) (ops : list Op) (w : World),
    khr_debug (gl w) = true ->
    let w1 := exec (enableES3DebugErrorLogging env clazz) w in
    holds_gl_debug_cb w1 /\
    holds_gl_debug_cb (exec (seq ops) w1) /\
    debug_callback_function (gl (exec (seq ops) w1)) <> proc_null /\
    Forall keeps_callback (trace (run (seq ops) w1)).
Proof.
  intros env clazz ops w Hk w1.
  assert (H1 : holds_gl_debug_cb w1).
  { subst w1. rewrite exec_enable. unfold installed. rewrite Hk.
    split; reflexivity. }
  destruct (seq_preserves_callback ops w1 H1) as [Hw Ht].
  repeat split; try apply H1; try apply Hw; try exact Ht.
  destruct Hw as [Hcb _]. rewrite Hcb. discriminate.
Qed.

Lemma callback_stays_installed_witness :
  holds_gl_debug_cb
    (exec (seq [ op_callback (mkInvocation 0x8246 GL_DEBUG_TYPE_ERROR_KHR 1
                                0x9146 4 "oops" nullptr);
                 op_enable 0 0;
                 op_callback (mkInvocation 0x8246 GL_DEBUG_TYPE_OTHER_KHR 2
                                0x9148 2 "ok" 16) ])
          (exec (enableES3DebugErrorLogging 0 0) (fresh_world true))).
Proof.
  apply (callback_stays_installed 0 0
           [ op_callback (mkInvocation 0x8246 GL_DEBUG_TYPE_ERROR_KHR 1
                            0x9146 4 "oops" nullptr);
             op_enable 0 0;
             op_callback (mkInvocation 0x8246 GL_DEBUG_TYPE_OTHER_KHR 2
                            0x9148 2 "ok" 16) ]
           (fresh_world true)).
  reflexivity.
Defined.

Lemma gl_error_entry_of_cons (o : Op) (ops : list Op) (e : LogEntry) :
  gl_error_entry_of ops e -> gl_error_entry_of (o :: ops) e.
Proof.
  intros (Hp & Ht & i & Hin & Htext).
  repeat split; try assumption. exists i. split; [now right | assumption].
Qed.

(** C9. Over any series of entry-point and callback invocations, from any
    world, the log only grows, and every entry added has error priority, the
    tag "OpenGLDebugLib" and the text "GL ERROR:", newline, space, the
    message of one of the callback invocations, period. *)
Theorem every_entry_is_a_gl_error :
  forall (ops : list Op) (w : World),
    exists new : list LogEntry,
      logcat (exec (seq ops) w) = logcat w ++ new /\
      Forall (gl_error_entry_of ops) new.
Proof.
  induction ops as [| o ops IH]; intros w.
  - exists []. split; [cbn; now rewrite app_nil_r | constructor].
  - unfold exec. rewrite run_seq_cons. cbn [final].
    destruct (IH (exec (op_prog o) w)) as (new & Hlog & Hall).
    unfold exec in Hlog |- *. rewrite Hlog.
    assert (Hall' : Forall (gl_error_entry_of (o :: ops)) new).
    { eapply Forall_impl; [| exact Hall].
      intros e. apply gl_error_entry_of_cons. }
    destruct o as [env clazz | i]; cbn [op_prog].
    + exists new. split; [| exact Hall'].
      change (final (run (enableES3DebugErrorLogging env clazz) w))
        with (exec (enableES3DebugErrorLogging env clazz) w).
      rewrite exec_enable. unfold installed.
      now destruct (khr_debug (gl w)).
    + rewrite run_invoke. destruct (is_error i) eqn:Herr; cbn [final].
      * exists (error_entry (inv_message i) :: new). split.
        -- cbn. now rewrite <- app_assoc.
        -- constructor; [| exact Hall'].
           repeat split. exists i. split; [now left | reflexivity].
      * exists new. split; [reflexivity | exact Hall'].
Qed.

(** C10. An invocation of the callback, whatever its seven arguments,
    leaves the GL context as it was (callback slot, user parameter and
    debug-output flag included) and the pending exception too; every call it
    makes goes to the log sink, and the log is the old one with entries
    appended. *)
Theorem gl_debug_cb_frame :
  forall (source type : GLenum) (id : GLuint) (severity : GLenum)
         (length : GLsizei) (message : string) (userParam : ptr) (w : World),
    let o := run (gl_debug_cb source type id severity length message
                              userParam) w in
    gl (final o) = gl w /\
    debug_callback_function (gl (final o)) = debug_callback_function (gl w) /\
    debug_callback_user_param (gl (final o)) =
      debug_callback_user_param (gl w) /\
    debug_output_on (gl (final o)) = debug_output_on (gl w) /\
    pending_exception (final o) = pending_exception w /\
    Forall (fun c => is_log_call c = true) (trace o) /\
    exists new : list LogEntry, logcat (final o) = logcat w ++ new.
Proof.
  intros source type id severity length message userParam w o.
  pose (i := mkInvocation source type id severity length message userParam).
  assert (Ho : o = run (invoke i) w) by reflexivity.
  assert (Hgl : gl (final o) = gl w).
  { rewrite Ho. apply (exec_invoke_gl i w). }
  rewrite Hgl. repeat split.
  - rewrite Ho. apply (exec_invoke_gl i w).
  - rewrite Ho, run_invoke.
    destruct (is_error i); cbn [trace]; repeat constructor.
  - rewrite Ho, run_invoke. destruct (is_error i); cbn [final].
    + now exists [error_entry (inv_message i)].
    + exists []. cbn. now rewrite app_nil_r.
Qed.

(** ** Further properties of the two functions together *)

Lemma gl_installed_ext (w1 w2 : World) :
  gl w1 = gl w2 -> gl (installed w1) = gl (installed w2).
Proof.
  intros H. unfold installed. rewrite H.
  now destruct (khr_debug (gl w2)).
Qed.

Lemma pending_exception_installed (w : World) :
  pending_exception (installed w) = pending_exception w.
Proof. unfold installed. now destruct (khr_debug (gl w)). Qed.

Lemma logcat_installed (w : World) : logcat (installed w) = logcat w.
Proof. unfold installed. now destruct (khr_debug (gl w)). Qed.

(** X1. Over any series of entry-point and callback invocations, the calls
    to the log sink are exactly one per callback invocation of type error,
    in order, each carrying that invocation's message, and the log ends as
    the old log followed by the entries for those messages: invocations of
    the entry point and callbacks of other types write nothing. *)
Theorem log_after_any_series :
  forall (ops : list Op) (w : World),
    log_calls (trace (run (seq ops) w)) =
      map error_call (error_messages ops) /\
    logcat (exec (seq ops) w) =
      logcat w ++ map error_entry (error_messages ops).
Proof.
  induction ops as [| o ops IH]; intros w.
  - cbn. now rewrite app_nil_r.
  - unfold exec. rewrite run_seq_cons. cbn [trace final].
    rewrite log_calls_app.
    destruct (IH (exec (op_prog o) w)) as [IHt IHl].
    unfold exec in IHt, IHl |- *. rewrite IHt, IHl.
    destruct o as [env clazz | i]; cbn [op_prog error_messages].
    + change (final (run (enableES3DebugErrorLogging env clazz) w))
        with (exec (enableES3DebugErrorLogging env clazz) w).
      rewrite exec_enable, logcat_installed, run_enable. now split.
    + rewrite run_invoke. destruct (is_error i); cbn.
      * split; [reflexivity | now rewrite <- app_assoc].
      * now split.
Qed.

Lemma debug_output_on_installed (w : World) :
  khr_debug (gl w) = true ->
  debug_output_on (gl (installed w)) = true /\ holds_gl_debug_cb (installed w).
Proof.
  intros Hk. unfold installed. rewrite Hk.
  unfold debug_output_on, holds_gl_debug_cb. cbn. repeat split.
  apply bool_decide_eq_true_2, elem_of_union_l, elem_of_singleton.
  reflexivity.
Qed.

(** X2. On a context with KHR_debug, once the entry point has run, debug
    output is on, and a message raised by the driver, whatever its source,
    id, severity and text, is logged as one entry for that text when its
    type is error and leaves the whole world as it was otherwise. *)
Theorem driver_message_after_enable :
  forall (env clazz : ptr) (source type : GLenum) (id : GLuint)
         (severity : GLenum) (message : string) (w : World),
    khr_debug (gl w) = true ->
    let w1 := exec (enableES3DebugErrorLogging env clazz) w in
    debug_output_on (gl w1) = true /\
    driver_message source type id severity message w1 =
      if type =? GL_DEBUG_TYPE_ERROR_KHR
      then write_log (error_entry message) w1
      else w1.
Proof.
  intros env clazz source type id severity message w Hk w1. subst w1.
  rewrite exec_enable.
  destruct (debug_output_on_installed w Hk) as [Hon [Hcb Hup]].
  split; [exact Hon |].
  unfold driver_message. rewrite Hon, Hcb. cbn [call_proc].
  unfold exec. rewrite run_invoke. unfold is_error. cbn [inv_type inv_message].
  now destruct (type =? GL_DEBUG_TYPE_ERROR_KHR).
Qed.

Lemma driver_message_after_enable_witness :
  driver_message 0x8246 GL_DEBUG_TYPE_PERFORMANCE_KHR 3 0x9147 "slow path"
    (exec (enableES3DebugErrorLogging 0 0) (fresh_world true)) =
  exec (enableES3DebugErrorLogging 0 0) (fresh_world true).
Proof.
  apply (proj2 (driver_message_after_enable 0 0 0x8246
                  GL_DEBUG_TYPE_PERFORMANCE_KHR 3 0x9147 "slow path"
                  (fresh_world true) eq_refl)).
Defined.

(** X3. The callback and the entry point commute: invoking the callback
    and then the entry point leaves the same world as invoking the entry
    point and then the callback, for all arguments of both. *)
Theorem gl_debug_cb_commutes_with_enable :
  forall (env clazz : ptr) (source type : GLenum) (id : GLuint)
         (severity : GLenum) (length : GLsizei) (message : string)
         (userParam : ptr) (w : World),
    exec (gl_debug_cb source type id severity length message userParam)
         (exec (enableES3DebugErrorLogging env clazz) w) =
    exec (enableES3DebugErrorLogging env clazz)
         (exec (gl_debug_cb source type id severity length message userParam)
               w).
Proof.
  intros env clazz source type id severity length message userParam w.
  pose (i := mkInvocation source type id severity length message userParam).
  change (exec (invoke i) (exec (enableES3DebugErrorLogging env clazz) w) =
          exec (enableES3DebugErrorLogging env clazz) (exec (invoke i) w)).
  rewrite !exec_enable. unfold exec. rewrite !run_invoke.
  destruct (is_error i); cbn [final]; [| reflexivity].
  unfold installed, write_log. cbn [gl].
  now destruct (khr_debug (gl w)).
Qed.

Lemma gl_after_series (ops : list Op) (w : World) :
  gl (exec (seq ops) w) =
    gl (if invokes_entry_point ops then installed w else w) /\
  pending_exception (exec (seq ops) w) = pending_exception w.
Proof.
  revert w. induction ops as [| o ops IH]; intros w.
  - now split.
  - unfold exec. rewrite run_seq_cons. cbn [final].
    destruct (IH (exec (op_prog o) w)) as [IHg IHp].
    unfold exec in IHg, IHp |- *. rewrite IHg, IHp.
    destruct o as [env clazz | i]; cbn [op_prog invokes_entry_point existsb
                                        is_enable orb].
    + change (final (run (enableES3DebugErrorLogging env clazz) w))
        with (exec (enableES3DebugErrorLogging env clazz) w).
      rewrite exec_enable, installed_idem, pending_exception_installed.
      now destruct (invokes_entry_point ops).
    + destruct (exec_invoke_gl i w) as [Hg Hp]. unfold exec in Hg, Hp.
      split; [| exact Hp].
      fold (invokes_entry_point ops).
      destruct (invokes_entry_point ops); [| exact Hg].
      now apply gl_installed_ext.
Qed.

(** X4. After any series of entry-point and callback invocations the GL
    context depends only on whether the entry point was invoked at all: if
    it was, the context is the one a single invocation leaves, however many
    times it ran and whatever callbacks ran in between; if not, the context
    is as it was.  The pending exception is as it was in both cases. *)
Theorem gl_state_after_any_series :
  forall (env clazz : ptr) (ops : list Op) (w : World),
    gl (exec (seq ops) w) =
      gl (if invokes_entry_point ops
          then exec (enableES3DebugErrorLogging env clazz) w
          else w) /\
    pending_exception (exec (seq ops) w) = pending_exception w.
Proof.
  intros env clazz ops w. rewrite exec_enable. apply gl_after_series.
Qed.

(** X6. Over any series of entry-point and callback invocations no
    capability is ever disabled and none other than [GL_DEBUG_OUTPUT_KHR]
    is ever enabled. *)
Theorem capabilities_after_any_series :
  forall (ops : list Op) (w : World),
    enabled (gl w) ⊆ enabled (gl (exec (seq ops) w)) /\
    enabled (gl (exec (seq ops) w)) ⊆
      {[ GL_DEBUG_OUTPUT_KHR ]} ∪ enabled (gl w).
Proof.
  intros ops w. destruct (gl_after_series ops w) as [-> _].
  unfold installed.
  destruct (invokes_entry_point ops), (khr_debug (gl w)); cbn;
    split; intros x Hx;
    rewrite ?elem_of_union in *; tauto.
Qed.
